(** * superagi/tools/code/write_spec.py : WriteSpecTool

    A shallow embedding of [WriteSpecTool._execute] and of the Python
    string methods it uses, followed by the properties of the tool.

    - Python [str] is [string]; [int] is [Z] (unbounded).
    - The tool holds [self.llm] and [self.resource_manager], each of them
      an object or [None] (the default of the class); an attribute looked
      up on [None] raises [AttributeError].
    - The methods of the collaborators (the LLM, the token counter, the
      resource manager, the logger) are parameters: each call takes the
      state of the outside world, returns a value or raises, and leaves a
      new state.  Every call is recorded in a trace of events, so that
      the number and the order of the calls can be stated.
    - [try ... except Exception as e] is a handler that receives only the
      exceptions that are instances of [Exception]. *)

From Stdlib Require Import String Ascii List ZArith Lia Bool Arith.
Import ListNotations.

Local Open Scope list_scope.
Local Open Scope string_scope.

(** ** Python [str] methods *)

Module PyStr.

(** [s.startswith(p)] *)
Definition startswith (s p : string) : bool := String.prefix p s.

(** [s.replace("", new)]: [new] before every character and at the end. *)
Fixpoint replace_empty (s new : string) : string :=
  match s with
  | EmptyString => new
  | String c s' => new ++ String c (replace_empty s' new)
  end.

(** Left-to-right scan of [s.replace(old, new)] for a non-empty [old].
    [skip] counts the characters of the occurrence found last that are
    still to be passed over: occurrences do not overlap. *)
Fixpoint replace_from (s old new : string) (skip : nat) : string :=
  match s with
  | EmptyString => EmptyString
  | String c s' =>
      match skip with
      | S k => replace_from s' old new k
      | O =>
          if String.prefix old s
          then new ++ replace_from s' old new (String.length old - 1)
          else String c (replace_from s' old new 0)
      end
  end.

(** [s.replace(old, new)]: every non-overlapping occurrence of [old],
    found from the left, becomes [new]. *)
Definition replace (s old new : string) : string :=
  match old with
  | EmptyString => replace_empty s new
  | String _ _ => replace_from s old new 0
  end.

(** Does the character [c] occur in [s]? *)
Fixpoint mem_char (c : ascii) (s : string) : bool :=
  match s with
  | EmptyString => false
  | String a s' => if Ascii.eqb a c then true else mem_char c s'
  end.

(** [s[n:]] *)
Fixpoint drop (n : nat) (s : string) : string :=
  match n, s with
  | O, _ => s
  | S _, EmptyString => EmptyString
  | S k, String _ s' => drop k s'
  end.

(** [sub in s] *)
Fixpoint str_in (sub s : string) : bool :=
  String.prefix sub s
  || match s with
     | EmptyString => false
     | String _ s' => str_in sub s'
     end.

End PyStr.

(** ** Python values seen by the tool *)

Module Py.

(** An exception object, as far as the tool observes it: whether it is an
    instance of [Exception] (what [except Exception] tests; [False] for
    [KeyboardInterrupt], [SystemExit] and the other classes that derive
    from [BaseException] only), and its rendering [f"{e}"]. *)
Record PyExn : Type := {
  is_Exception : bool;
  exn_str : string
}.

(** [KeyError(key)] for a key that is a plain word: [str] of a [KeyError]
    is the [repr] of the key, the key between single quotes. *)
Definition KeyError (key : string) : PyExn :=
  {| is_Exception := true; exn_str := "'" ++ key ++ "'" |}.

(** The [AttributeError] of [o.attr] for an [o] of the type named [ty]
    that has no such attribute. *)
Definition AttributeError (ty attr : string) : PyExn :=
  {| is_Exception := true;
     exn_str := "'" ++ ty ++ "' object has no attribute '" ++ attr ++ "'" |}.

(** The [TypeError] of [a + b] for operands of the types named [ta] and
    [tb], neither of which can be added to the other. *)
Definition TypeError_add (ta tb : string) : PyExn :=
  {| is_Exception := true;
     exn_str := "unsupported operand type(s) for +: '" ++ ta
                ++ "' and '" ++ tb ++ "'" |}.

(** A call returns a value or raises. *)
Inductive outcome (A : Type) : Type :=
| Ret (a : A)
| Raise (e : PyExn).
Arguments Ret {A} a.
Arguments Raise {A} e.

(** A chat message, the dict [{"role": ..., "content": ...}]. *)
Record Message : Type := {
  role : string;
  content : string
}.

(** The values that the result of [chat_completion] holds under its keys:
    a text, an integer or [None]. *)
Inductive PyVal : Type :=
| VStr (s : string)
| VInt (n : Z)
| VNone.

(** [type(v).__name__] *)
Definition type_name (v : PyVal) : string :=
  match v with
  | VStr _ => "str"
  | VInt _ => "int"
  | VNone => "NoneType"
  end.

(** The dict returned by [chat_completion], with string keys. *)
Definition dict : Type := list (string * PyVal).

(** [KeyboardInterrupt()]: derives from [BaseException], not from
    [Exception]; its [str] is empty. *)
Definition KeyboardInterrupt : PyExn :=
  {| is_Exception := false; exn_str := "" |}.

(** [RuntimeError(msg)] *)
Definition RuntimeError (msg : string) : PyExn :=
  {| is_Exception := true; exn_str := msg |}.

Fixpoint dict_get (d : dict) (key : string) : option PyVal :=
  match d with
  | [] => None
  | (k, v) :: d' => if String.eqb k key then Some v else dict_get d' key
  end.

End Py.

Import Py.

(** ** The tool *)

Module WriteSpecTool.

Import PyStr.

(** [BaseLlm], the object behind [self.llm]. *)
Record BaseLlm (World Model : Type) : Type := {
  get_model : World -> outcome Model * World;
  chat_completion : list Message -> Z -> World -> outcome dict * World
}.
Arguments get_model {World Model} b w.
Arguments chat_completion {World Model} b messages max_tokens w.

(** [ResourceManager], the object behind [self.resource_manager]. *)
Record ResourceManager (World : Type) : Type := {
  write_file : string -> PyVal -> World -> outcome string * World
}.
Arguments write_file {World} r file_name content w.

(** What [WriteSpecTool] works with: its attributes [llm] and
    [resource_manager] ([None] unless set), and the static methods of
    [AgentPromptBuilder] and [TokenCounter] and the logger of the module.
    Every call may depend on and change the state [World] of the outside,
    and may raise. [logger.error] writes a log record and returns.
    [add_list_items_to_string] renders a list of goals as text. *)
Record Collaborators (World Model : Type) : Type := {
  llm : option (BaseLlm World Model);
  resource_manager : option (ResourceManager World);
  add_list_items_to_string : list string -> string;
  count_message_tokens : list Message -> Model -> World -> outcome Z * World;
  token_limit : Model -> World -> outcome Z * World;
  logger_error : PyExn -> World -> World
}.
Arguments llm {World Model} c.
Arguments resource_manager {World Model} c.
Arguments add_list_items_to_string {World Model} c items.
Arguments count_message_tokens {World Model} c messages model w.
Arguments token_limit {World Model} c model w.
Arguments logger_error {World Model} c e w.

(** One collaborator call, with its arguments and what came back. *)
Inductive Event (Model : Type) : Type :=
| GetModel (r : outcome Model)
| CountMessageTokens (messages : list Message) (model : Model) (r : outcome Z)
| TokenLimit (model : Model) (r : outcome Z)
| ChatCompletion (messages : list Message) (max_tokens : Z) (r : outcome dict)
| WriteFile (file_name : string) (content : PyVal) (r : outcome string)
| LoggerError (e : PyExn).
Arguments GetModel {Model} r.
Arguments CountMessageTokens {Model} messages model r.
Arguments TokenLimit {Model} model r.
Arguments ChatCompletion {Model} messages max_tokens r.
Arguments WriteFile {Model} file_name content r.
Arguments LoggerError {Model} e.

Definition is_chat_completion {Model} (ev : Event Model) : bool :=
  match ev with ChatCompletion _ _ _ => true | _ => false end.

Definition is_write_file {Model} (ev : Event Model) : bool :=
  match ev with WriteFile _ _ _ => true | _ => false end.

Definition is_count_message_tokens {Model} (ev : Event Model) : bool :=
  match ev with CountMessageTokens _ _ _ => true | _ => false end.

Definition is_token_limit {Model} (ev : Event Model) : bool :=
  match ev with TokenLimit _ _ => true | _ => false end.

Definition is_get_model {Model} (ev : Event Model) : bool :=
  match ev with GetModel _ => true | _ => false end.

Definition is_logger_error {Model} (ev : Event Model) : bool :=
  match ev with LoggerError _ => true | _ => false end.

(** How many events of a trace satisfy [p]. *)
Definition calls {Model} (p : Event Model -> bool) (t : list (Event Model)) : nat :=
  List.length (List.filter p t).

(** The exception a call raised, if it raised. *)
Definition raised {Model} (ev : Event Model) : option PyExn :=
  match ev with
  | GetModel (Raise e)
  | CountMessageTokens _ _ (Raise e)
  | TokenLimit _ (Raise e)
  | ChatCompletion _ _ (Raise e)
  | WriteFile _ _ (Raise e) => Some e
  | _ => None
  end.

(** The calls that come before the file is written. *)
Definition before_write {Model} (ev : Event Model) : bool :=
  match ev with
  | GetModel _ | CountMessageTokens _ _ _ | TokenLimit _ _
  | ChatCompletion _ _ _ => true
  | _ => false
  end.

(** [sub in s] *)
Definition contains (s sub : string) : Prop :=
  exists l r, s = l ++ sub ++ r.

(** The template of the prompt, line by line as the source has it
    (the lines of blanks included). *)
Definition prompt_lines : list string := [
  "You are a super smart developer who has been asked to make a specification for a program.";
  "        ";
  "            Your high-level goal is:";
  "            {goals}";
  "        ";
  "            Please keep in mind the following when creating the specification:";
  "            1. Be super explicit about what the program should do, which features it should have, and give details about anything that might be unclear.";
  "            2. Lay out the names of the core classes, functions, methods that will be necessary, as well as a quick comment on their purpose.";
  "            3. List all non-standard dependencies that will have to be used.";
  "        ";
  "            Write a specification for the following task:";
  "            {task}";
  "            "
]%list.

Definition newline : string := String (ascii_of_nat 10) "".

Definition prompt_template : string :=
  Eval cbv in String.concat newline prompt_lines.

(** The template, cut at its two placeholders:
    [prompt_head + "{goals}" + prompt_middle + "{task}" + prompt_tail]. *)
Definition prompt_head : string :=
  Eval cbv in String.concat newline (firstn 3 prompt_lines) ++ newline
              ++ "            ".

(** What follows the line break after ["{goals}"], up to ["{task}"]. *)
Definition prompt_middle_rest : string :=
  Eval cbv in String.concat newline (firstn 7 (skipn 4 prompt_lines)) ++ newline
              ++ "            ".

Definition prompt_middle : string :=
  String (ascii_of_nat 10) prompt_middle_rest.

Definition prompt_tail : string := Eval cbv in newline ++ "            ".

Definition success_suffix : string :=
  "Specification generated and saved successfully".

Definition error_prefix : string := "Error generating specification: ".

Section Tool.

Context {World Model : Type}.
Variable env : Collaborators World Model.
(** [self.goals] *)
Variable goals : list string.

(** Computations of the tool: from a state of the world to an outcome, the
    new state and the calls made. The state and the trace survive a raise. *)
Definition M (A : Type) : Type :=
  World -> outcome A * World * list (Event Model).

Definition ret {A} (a : A) : M A := fun w => (Ret a, w, []).

Definition raise {A} (e : PyExn) : M A := fun w => (Raise e, w, []).

Definition bind {A B} (m : M A) (f : A -> M B) : M B :=
  fun w =>
    match m w with
    | (Ret a, w1, t1) =>
        match f a w1 with
        | (r, w2, t2) => (r, w2, (t1 ++ t2)%list)
        end
    | (Raise e, w1, t1) => (Raise e, w1, t1)
    end.

(** [try: m  except Exception as e: h e] *)
Definition try_except {A} (m : M A) (h : PyExn -> M A) : M A :=
  fun w =>
    match m w with
    | (Ret a, w1, t1) => (Ret a, w1, t1)
    | (Raise e, w1, t1) =>
        if is_Exception e
        then match h e w1 with
             | (r, w2, t2) => (r, w2, (t1 ++ t2)%list)
             end
        else (Raise e, w1, t1)
    end.

Notation "x <- m ;; k" := (bind m (fun x => k))
  (at level 61, m at next level, right associativity).
Notation "m ;;; k" := (bind m (fun _ => k))
  (at level 61, right associativity).

(** A call to a collaborator, recorded. *)
Definition call {A} (f : World -> outcome A * World)
    (ev : outcome A -> Event Model) : M A :=
  fun w => match f w with (r, w1) => (r, w1, [ev r]) end.

(** [o.attr] for an attribute [o] of the tool that is an object of the
    expected class or [None]: the object's bound method, given here as
    the object itself, or the [AttributeError] of [None]. *)
Definition getattr {A} (o : option A) (attr : string) : M A :=
  match o with
  | Some a => ret a
  | None => raise (AttributeError "NoneType" attr)
  end.

(** [d[key]] *)
Definition getitem (d : dict) (key : string) : M PyVal :=
  match dict_get d key with
  | Some v => ret v
  | None => raise (KeyError key)
  end.

(** [v + s] for a [str] [s]: concatenation when [v] is a [str]; an [int]
    or [None] cannot be added to a [str]. *)
Definition add_str (v : PyVal) (s : string) : M string :=
  match v with
  | VStr c => ret (c ++ s)
  | _ => raise (TypeError_add (type_name v) "str")
  end.

(** The prompt of lines 67 to 81. *)
Definition fill_prompt (task_description : string) : string :=
  let prompt := prompt_template in
  let prompt := replace prompt "{goals}" (add_list_items_to_string env goals) in
  let prompt := replace prompt "{task}" task_description in
  prompt.

(** The body of the [try]. In a call [o.f(args)] Python looks [o.f] up
    first, evaluates the arguments next and calls last. *)
Definition _execute_try (task_description spec_file_name : string) : M string :=
  let prompt := fill_prompt task_description in
  let messages := [ {| role := "system"; content := prompt |} ] in
  self_llm <- getattr (llm env) "get_model" ;;
  model <- call (get_model self_llm) GetModel ;;
  total_tokens <- call (count_message_tokens env messages model)
                       (CountMessageTokens messages model) ;;
  self_llm <- getattr (llm env) "get_model" ;;
  model' <- call (get_model self_llm) GetModel ;;
  token_limit <- call (token_limit env model') (TokenLimit model') ;;
  self_llm <- getattr (llm env) "chat_completion" ;;
  let max_tokens := (token_limit - total_tokens - 100)%Z in
  result <- call (chat_completion self_llm messages max_tokens)
                 (ChatCompletion messages max_tokens) ;;
  self_resource_manager <- getattr (resource_manager env) "write_file" ;;
  content <- getitem result "content" ;;
  write_result <- call (write_file self_resource_manager spec_file_name content)
                       (WriteFile spec_file_name content) ;;
  if negb (startswith write_result "Error")
  then content' <- getitem result "content" ;;
       add_str content' success_suffix
  else ret write_result.

(** The [except Exception as e] clause. *)
Definition _execute_except (e : PyExn) : M string :=
  (fun w => (Ret tt, logger_error env e w, [LoggerError e])) ;;;
  ret (error_prefix ++ exn_str e).

Definition _execute (task_description spec_file_name : string) : M string :=
  try_except (_execute_try task_description spec_file_name) _execute_except.

(** *** The responses of the collaborators along a run

    These two relations speak of the collaborators only: which calls of
    the [try], in its order, returned, and where an exception comes up. *)

(** How far the calls got, with the values the later lines use. *)
Inductive Stage : Type :=
| Model1 (model : Model)
| Counted (total : Z)
| Model2 (total : Z) (model' : Model)
| Limited (total limit : Z)
| Answered (d : dict)
| Written (d : dict) (v : PyVal) (wr : string).

(** [reaches task file w0 st w t]: started in the world [w0], the calls
    up to the stage [st] were made and returned, leaving the world [w];
    [t] lists them. *)
Inductive reaches (task file : string) (w0 : World) :
    Stage -> World -> list (Event Model) -> Prop :=
| reaches_Model1 l model w1 :
    llm env = Some l ->
    get_model l w0 = (Ret model, w1) ->
    reaches task file w0 (Model1 model) w1 [GetModel (Ret model)]
| reaches_Counted model w1 t total w2 :
    reaches task file w0 (Model1 model) w1 t ->
    count_message_tokens env
      [ {| role := "system"; content := fill_prompt task |} ] model w1
      = (Ret total, w2) ->
    reaches task file w0 (Counted total) w2
      (t ++ [CountMessageTokens
               [ {| role := "system"; content := fill_prompt task |} ]
               model (Ret total)])
| reaches_Model2 total w2 t l model' w3 :
    reaches task file w0 (Counted total) w2 t ->
    llm env = Some l ->
    get_model l w2 = (Ret model', w3) ->
    reaches task file w0 (Model2 total model') w3 (t ++ [GetModel (Ret model')])
| reaches_Limited total model' w3 t limit w4 :
    reaches task file w0 (Model2 total model') w3 t ->
    token_limit env model' w3 = (Ret limit, w4) ->
    reaches task file w0 (Limited total limit) w4
      (t ++ [TokenLimit model' (Ret limit)])
| reaches_Answered total limit w4 t l d w5 :
    reaches task file w0 (Limited total limit) w4 t ->
    llm env = Some l ->
    chat_completion l
      [ {| role := "system"; content := fill_prompt task |} ]
      (limit - total - 100) w4 = (Ret d, w5) ->
    reaches task file w0 (Answered d) w5
      (t ++ [ChatCompletion
               [ {| role := "system"; content := fill_prompt task |} ]
               (limit - total - 100) (Ret d)])
| reaches_Written d w5 t rm v wr w6 :
    reaches task file w0 (Answered d) w5 t ->
    resource_manager env = Some rm ->
    dict_get d "content" = Some v ->
    write_file rm file v w5 = (Ret wr, w6) ->
    reaches task file w0 (Written d v wr) w6 (t ++ [WriteFile file v (Ret wr)]).

(** [raises task file w0 e w t]: started in [w0], the [try] comes to the
    exception [e] in the world [w], after the calls [t]; when a call
    raised [e], it is the last of [t]. *)
Inductive raises (task file : string) (w0 : World) :
    PyExn -> World -> list (Event Model) -> Prop :=
| raises_no_llm :
    llm env = None ->
    raises task file w0 (AttributeError "NoneType" "get_model") w0 []
| raises_get_model l e w1 :
    llm env = Some l ->
    get_model l w0 = (Raise e, w1) ->
    raises task file w0 e w1 [GetModel (Raise e)]
| raises_count_message_tokens model w1 t e w2 :
    reaches task file w0 (Model1 model) w1 t ->
    count_message_tokens env
      [ {| role := "system"; content := fill_prompt task |} ] model w1
      = (Raise e, w2) ->
    raises task file w0 e w2
      (t ++ [CountMessageTokens
               [ {| role := "system"; content := fill_prompt task |} ]
               model (Raise e)])
| raises_get_model' total w2 t l e w3 :
    reaches task file w0 (Counted total) w2 t ->
    llm env = Some l ->
    get_model l w2 = (Raise e, w3) ->
    raises task file w0 e w3 (t ++ [GetModel (Raise e)])
| raises_token_limit total model' w3 t e w4 :
    reaches task file w0 (Model2 total model') w3 t ->
    token_limit env model' w3 = (Raise e, w4) ->
    raises task file w0 e w4 (t ++ [TokenLimit model' (Raise e)])
| raises_chat_completion total limit w4 t l e w5 :
    reaches task file w0 (Limited total limit) w4 t ->
    llm env = Some l ->
    chat_completion l
      [ {| role := "system"; content := fill_prompt task |} ]
      (limit - total - 100) w4 = (Raise e, w5) ->
    raises task file w0 e w5
      (t ++ [ChatCompletion
               [ {| role := "system"; content := fill_prompt task |} ]
               (limit - total - 100) (Raise e)])
| raises_no_resource_manager d w5 t :
    reaches task file w0 (Answered d) w5 t ->
    resource_manager env = None ->
    raises task file w0 (AttributeError "NoneType" "write_file") w5 t
| raises_no_content d w5 t rm :
    reaches task file w0 (Answered d) w5 t ->
    resource_manager env = Some rm ->
    dict_get d "content" = None ->
    raises task file w0 (KeyError "content") w5 t
| raises_write_file d w5 t rm v e w6 :
    reaches task file w0 (Answered d) w5 t ->
    resource_manager env = Some rm ->
    dict_get d "content" = Some v ->
    write_file rm file v w5 = (Raise e, w6) ->
    raises task file w0 e w6 (t ++ [WriteFile file v (Raise e)])
| raises_not_a_str d v wr w6 t :
    reaches task file w0 (Written d v wr) w6 t ->
    startswith wr "Error" = false ->
    (forall c, v <> VStr c) ->
    raises task file w0 (TypeError_add (type_name v) "str") w6 t.

End Tool.

(** What a run returned (or raised), and the calls it made. *)
Definition result_of {World Model A}
    (x : outcome A * World * list (Event Model)) : outcome A := fst (fst x).

Definition trace_of {World Model A}
    (x : outcome A * World * list (Event Model)) : list (Event Model) := snd x.

End WriteSpecTool.

(** ** Scripted collaborators, for concrete runs *)

Module Scripted.

Import WriteSpecTool.

(** A rendering of the goals, one per line. *)
Definition one_per_line (items : list string) : string :=
  String.concat "" (List.map (fun g => g ++ newline) items).

(** An LLM and a writer with fixed answers; the world has no state. *)
Definition scripted_llm (chat : outcome dict) : BaseLlm unit string :=
  {| get_model := fun w => (Ret "gpt-4", w);
     chat_completion := fun _ _ w => (chat, w) |}.

Definition scripted_writer (written : outcome string) : ResourceManager unit :=
  {| write_file := fun _ _ w => (written, w) |}.

(** A tool with the given attributes and a token counter with fixed
    answers. *)
Definition tool (the_llm : option (BaseLlm unit string))
    (the_resource_manager : option (ResourceManager unit))
    (limit total : Z) : Collaborators unit string :=
  {| llm := the_llm;
     resource_manager := the_resource_manager;
     add_list_items_to_string := one_per_line;
     count_message_tokens := fun _ _ w => (Ret total, w);
     token_limit := fun _ w => (Ret limit, w);
     logger_error := fun _ w => w |}.

Definition scripted (limit total : Z) (chat : outcome dict)
    (written : outcome string) : Collaborators unit string :=
  tool (Some (scripted_llm chat)) (Some (scripted_writer written)) limit total.

Definition spec_result : dict :=
  [("response", VStr "..."); ("content", VStr "The program adds two numbers.")]%list.

Definition adder_goals : list string := ["Write an adder"]%list.

(** Everything works. *)
Definition all_fine : Collaborators unit string :=
  scripted 8192 200 (Ret spec_result) (Ret "File written to adder.txt").

(** The resource manager reports a failure. *)
Definition disk_full : Collaborators unit string :=
  scripted 8192 200 (Ret spec_result) (Ret "Error: disk full").

(** The LLM call fails with an [Exception]. *)
Definition llm_down : Collaborators unit string :=
  scripted 8192 200 (Raise (RuntimeError "rate limit")) (Ret "unused").

(** The LLM call is interrupted from the keyboard. *)
Definition interrupted : Collaborators unit string :=
  scripted 8192 200 (Raise KeyboardInterrupt) (Ret "unused").


(** The LLM answers with an error report: a dict without ["content"]. *)
Definition no_content : Collaborators unit string :=
  scripted 8192 200 (Ret [("error", VStr "ERROR_OPENAI")]%list) (Ret "unused").

(** The LLM answers without a text: the content is [None]. *)
Definition none_content : Collaborators unit string :=
  scripted 8192 200 (Ret [("content", VNone)]%list)
    (Ret "File written to adder.txt").

(** The tool was given no resource manager. *)
Definition no_resource_manager : Collaborators unit string :=
  tool (Some (scripted_llm (Ret spec_result))) None 8192 200.

(** The tool was given no LLM. *)
Definition no_llm : Collaborators unit string :=
  tool None (Some (scripted_writer (Ret "unused"))) 8192 200.

End Scripted.

(** ** Facts about the string methods *)

Module PyStrFacts.

Import PyStr.

Example replace_ex1 : replace "aaa" "aa" "b" = "ba".
Proof. reflexivity. Qed.

Example replace_ex2 : replace "abc" "" "-" = "-a-b-c-".
Proof. reflexivity. Qed.

Example replace_ex3 : replace "x{task}y{task}" "{task}" "T" = "xTyT".
Proof. reflexivity. Qed.

Example replace_ex4 : replace "abab" "ab" "aab" = "aabaab".
Proof. reflexivity. Qed.

Example startswith_ex1 : startswith "Error: disk full" "Error" = true.
Proof. reflexivity. Qed.

Example startswith_ex2 : startswith "error: disk full" "Error" = false.
Proof. reflexivity. Qed.

Example startswith_ex3 : startswith "Erro" "Error" = false.
Proof. reflexivity. Qed.

Lemma append_assoc (a b c : string) : (a ++ b) ++ c = a ++ (b ++ c).
Proof. induction a as [|x a IH]; simpl; [reflexivity | now rewrite IH]. Qed.

Lemma prefix_append (p s : string) : String.prefix p (p ++ s) = true.
Proof.
  induction p as [|x p IH]; simpl.
  - now destruct s.
  - destruct (ascii_dec x x) as [_|N]; [exact IH | now elim N].
Qed.

Lemma prefix_length (p s : string) :
  String.prefix p s = true -> String.length p <= String.length s.
Proof.
  revert s; induction p as [|x p IH]; intros s H; simpl; [lia|].
  destruct s as [|y s]; simpl in H; [discriminate|].
  destruct (ascii_dec x y); [|discriminate].
  apply IH in H. simpl. lia.
Qed.

(** [p] is a prefix of [s] exactly when [s] is [p] followed by a rest. *)
Lemma prefix_iff (p s : string) :
  String.prefix p s = true <-> exists rest, s = p ++ rest.
Proof.
  split.
  - revert s; induction p as [|x p IH]; intros s H.
    + now exists s.
    + destruct s as [|y s]; simpl in H; [discriminate|].
      destruct (ascii_dec x y) as [->|]; [|discriminate].
      destruct (IH _ H) as [rest ->]. now exists rest.
  - intros [rest ->]. apply prefix_append.
Qed.

(** A character that does not occur in [p] cuts every match of [p]. *)
Lemma prefix_cut (p g r : string) (c : ascii) :
  mem_char c p = false ->
  String.prefix p (g ++ String c r) = String.prefix p g.
Proof.
  revert g; induction p as [|x p IH]; intros g H.
  - now destruct g.
  - simpl in H. destruct (Ascii.eqb x c) eqn:E; [discriminate|].
    destruct g as [|y g]; simpl.
    + destruct (ascii_dec x c) as [->|]; [|reflexivity].
      now rewrite Ascii.eqb_refl in E.
    + destruct (ascii_dec x y); [now apply IH | reflexivity].
Qed.

Lemma prefix_head_neq (x : ascii) (p : string) (y : ascii) (s : string) :
  Ascii.eqb y x = false -> String.prefix (String x p) (String y s) = false.
Proof.
  intros E. simpl. destruct (ascii_dec x y) as [->|]; [|reflexivity].
  now rewrite Ascii.eqb_refl in E.
Qed.

(** The characters still to be skipped are dropped. *)
Lemma replace_from_skip (p s old new : string) :
  replace_from (p ++ s) old new (String.length p) = replace_from s old new 0.
Proof. induction p as [|x p IH]; simpl; [reflexivity | exact IH]. Qed.

(** The scan, unfolded once: at an occurrence of [old] the result is [new]
    followed by the scan of what comes after the occurrence; otherwise the
    first character is kept. *)
Lemma replace_from_unfold (c : ascii) (s old new : string) :
  old <> "" ->
  replace_from (String c s) old new 0 =
    if String.prefix old (String c s)
    then new ++ replace_from (drop (String.length old) (String c s)) old new 0
    else String c (replace_from s old new 0).
Proof.
  intros Hne. cbn [replace_from].
  destruct (String.prefix old (String c s)) eqn:E; [|reflexivity].
  f_equal. apply prefix_iff in E. destruct E as [rest E].
  destruct old as [|x old]; [now elim Hne|].
  simpl in E. injection E as -> ->.
  cbn [String.length drop].
  replace (S (String.length old) - 1) with (String.length old) by lia.
  rewrite replace_from_skip. f_equal.
  clear. induction old as [|y old IH]; simpl; [reflexivity | exact IH].
Qed.

(** At an occurrence: [(old + s).replace(old, new) = new + s.replace(old, new)]. *)
Lemma replace_from_match (s old new : string) :
  old <> "" ->
  replace_from (old ++ s) old new 0 = new ++ replace_from s old new 0.
Proof.
  intros Hne. destruct old as [|x old]; [now elim Hne|].
  change (String x old ++ s) with (String x (old ++ s)).
  cbn [replace_from].
  change (String x (old ++ s)) with (String x old ++ s).
  rewrite prefix_append. cbn [String.length].
  replace (S (String.length old) - 1) with (String.length old) by lia.
  now rewrite replace_from_skip.
Qed.

(** A text without the first character of [old] is copied. *)
Lemma replace_from_copy (p s : string) (x : ascii) (old new : string) :
  mem_char x p = false ->
  replace_from (p ++ s) (String x old) new 0 =
  p ++ replace_from s (String x old) new 0.
Proof.
  induction p as [|y p IH]; intros H; [reflexivity|].
  simpl in H. destruct (Ascii.eqb y x) eqn:E; [discriminate|].
  change (String y p ++ s) with (String y (p ++ s)).
  cbn [replace_from]. rewrite (prefix_head_neq _ _ _ _ E).
  simpl. now rewrite IH.
Qed.

(** The scan splits at a character that does not occur in [old]. *)
Lemma replace_from_cut (g r : string) (c : ascii) (old new : string) (k : nat) :
  mem_char c old = false ->
  k <= String.length g ->
  replace_from (g ++ String c r) old new k =
  replace_from g old new k ++ replace_from (String c r) old new 0.
Proof.
  intros Hc. revert k. induction g as [|y g IH]; intros k Hk.
  - simpl in Hk. assert (k = 0) as -> by lia. reflexivity.
  - change (String y g ++ String c r) with (String y (g ++ String c r)).
    destruct k as [|k].
    + cbn [replace_from].
      change (String y (g ++ String c r)) with (String y g ++ String c r).
      rewrite (prefix_cut _ _ _ _ Hc).
      destruct (String.prefix old (String y g)) eqn:E.
      * rewrite IH, append_assoc; [reflexivity|].
        apply prefix_length in E. simpl in E. lia.
      * simpl. rewrite IH; [reflexivity | lia].
    + cbn [replace_from]. apply IH. simpl in Hk. lia.
Qed.

(** Without an occurrence of [old] the text is copied. *)
Lemma replace_from_absent (s old new : string) :
  str_in old s = false -> replace_from s old new 0 = s.
Proof.
  induction s as [|c s IH]; intros H; [reflexivity|].
  cbn [str_in] in H. apply Bool.orb_false_iff in H. destruct H as [Hp Hs].
  cbn [replace_from]. rewrite Hp. now rewrite IH.
Qed.

(** [sub in s] holds exactly when [s] is some text, [sub], some text. *)
Lemma str_in_iff (sub s : string) :
  str_in sub s = true <-> exists l r, s = l ++ sub ++ r.
Proof.
  split.
  - induction s as [|c s IH]; cbn [str_in]; intros H;
      apply Bool.orb_true_iff in H; destruct H as [H|H]; try discriminate.
    + apply prefix_iff in H. destruct H as [r ->]. now exists "", r.
    + apply prefix_iff in H. destruct H as [r ->]. now exists "", r.
    + destruct (IH H) as (l & r & ->). now exists (String c l), r.
  - intros (l & r & ->). induction l as [|c l IH].
    + destruct (sub ++ r) eqn:E; cbn [str_in append].
      * destruct sub; [reflexivity | discriminate].
      * rewrite <- E. now rewrite prefix_append.
    + change (String c l ++ sub ++ r) with (String c (l ++ sub ++ r)).
      cbn [str_in]. rewrite IH. apply Bool.orb_true_r.
Qed.

End PyStrFacts.

(** ** Facts about the tool *)

Module WriteSpecToolFacts.

Import PyStr PyStrFacts WriteSpecTool.

Lemma prompt_template_split :
  prompt_template =
  prompt_head ++ "{goals}" ++ prompt_middle ++ "{task}" ++ prompt_tail.
Proof. reflexivity. Qed.

(** Filling the template, placeholder by placeholder: the rendered goals
    go through the second replacement, the task description through none. *)
Lemma fill_template (g t : string) :
  replace (replace prompt_template "{goals}" g) "{task}" t =
  prompt_head ++ replace g "{task}" t ++ prompt_middle ++ t ++ prompt_tail.
Proof.
  rewrite prompt_template_split. unfold replace.
  rewrite (replace_from_copy prompt_head) by reflexivity.
  rewrite (replace_from_match _ "{goals}") by discriminate.
  rewrite (replace_from_copy prompt_middle) by reflexivity.
  replace (replace_from ("{task}" ++ prompt_tail) "{goals}" g 0)
    with ("{task}" ++ prompt_tail) by reflexivity.
  rewrite (replace_from_copy prompt_head) by reflexivity.
  change (prompt_middle ++ "{task}" ++ prompt_tail)
    with (String (ascii_of_nat 10)
            (prompt_middle_rest ++ "{task}" ++ prompt_tail)).
  rewrite (replace_from_cut g) by (reflexivity || apply Nat.le_0_l).
  change (String (ascii_of_nat 10)
            (prompt_middle_rest ++ "{task}" ++ prompt_tail))
    with (prompt_middle ++ "{task}" ++ prompt_tail).
  rewrite (replace_from_copy prompt_middle) by reflexivity.
  rewrite (replace_from_match _ "{task}") by discriminate.
  replace (replace_from prompt_tail "{task}" t 0) with prompt_tail
    by reflexivity.
  reflexivity.
Qed.

Section Runs.

Context {World Model : Type}.
Variable env : Collaborators World Model.
Variable goals : list string.

(** *** Inversion of the steps of a run *)

Lemma bind_call_inv {A B} (f : World -> outcome A * World)
    (ev : outcome A -> Event Model) (k : A -> M B) w r w2 t :
  bind (call f ev) k w = (r, w2, t) ->
  (exists a w1 t2,
      f w = (Ret a, w1) /\ k a w1 = (r, w2, t2) /\ t = ev (Ret a) :: t2) \/
  (exists e, f w = (Raise e, w2) /\ r = Raise e /\ t = [ev (Raise e)]%list).
Proof.
  unfold bind, call. destruct (f w) as [[a|e] w1].
  - destruct (k a w1) as [[r' w'] t'] eqn:E. intros [= <- <- <-].
    left. now exists a, w1, t'.
  - intros [= <- <- <-]. right. now exists e.
Qed.

Lemma bind_getitem_inv {B} (d : dict) (key : string) (k : PyVal -> M B)
    (w : World) (x : outcome B * World * list (Event Model)) :
  bind (getitem d key) k w = x ->
  (exists v, dict_get d key = Some v /\ k v w = x) \/
  (dict_get d key = None /\ x = (Raise (KeyError key), w, []%list)).
Proof.
  unfold bind, getitem. destruct (dict_get d key) as [v|].
  - unfold ret. destruct (k v w) as [[r' w'] t'] eqn:E. cbn [app].
    intros <-. left. now exists v.
  - unfold raise. intros <-. now right.
Qed.

Lemma bind_getattr_inv {A B} (o : option A) (attr : string) (k : A -> M B)
    (w : World) (x : outcome B * World * list (Event Model)) :
  bind (getattr o attr) k w = x ->
  (exists a, o = Some a /\ k a w = x) \/
  (o = None /\ x = (Raise (AttributeError "NoneType" attr), w, []%list)).
Proof.
  unfold bind, getattr. destruct o as [a|].
  - unfold ret. destruct (k a w) as [[r' w'] t'] eqn:E. cbn [app].
    intros <-. left. now exists a.
  - unfold raise. intros <-. now right.
Qed.

Lemma add_str_inv (v : PyVal) (s : string) (w : World)
    (x : outcome string * World * list (Event Model)) :
  add_str v s w = x ->
  (exists c, v = VStr c /\ x = (Ret (c ++ s), w, []%list)) \/
  ((forall c, v <> VStr c) /\
   x = (Raise (TypeError_add (type_name v) "str"), w, []%list)).
Proof.
  intros <-. destruct v as [c| |]; [left; now exists c | right | right];
    (split; [discriminate | reflexivity]).
Qed.

(** The [try] statement, unfolded: a value of the body is returned; an
    instance of [Exception] goes to the handler, which logs it and
    returns the error text; any other exception goes on to the caller. *)
Lemma _execute_unfold task file w0 :
  _execute env goals task file w0 =
  match _execute_try env goals task file w0 with
  | (Ret a, w1, t1) => (Ret a, w1, t1)
  | (Raise e, w1, t1) =>
      if is_Exception e
      then (Ret (error_prefix ++ exn_str e), logger_error env e w1,
            (t1 ++ [LoggerError e])%list)
      else (Raise e, w1, t1)
  end.
Proof.
  unfold _execute, try_except.
  destruct (_execute_try env goals task file w0) as [[[a|e] w1] t1];
    [reflexivity|].
  destruct (is_Exception e); reflexivity.
Qed.

End Runs.

(** Case analysis of a run [H : _execute ... w0 = (r, w1, t)]: every
    attribute is there or not, every collaborator call returns or
    raises. *)
Ltac body_cases H :=
  unfold _execute_try in H;
  repeat first
    [ apply bind_call_inv in H;
      destruct H as [(? & ? & ? & ? & H & ->) | (? & ? & -> & ->)]
    | apply bind_getitem_inv in H;
      destruct H as [(? & ? & H) | (? & [= -> -> ->])]
    | apply bind_getattr_inv in H;
      destruct H as [(? & ? & H) | (? & [= -> -> ->])] ];
  try match type of H with
      | (if negb ?b then _ else _) _ = _ =>
          destruct b eqn:?; cbn [negb] in H;
          [ unfold ret in H; injection H as <- <- <-
          | apply bind_getitem_inv in H;
            destruct H as [(? & ? & H) | (? & [= -> -> ->])];
            [ apply add_str_inv in H;
              destruct H as [(? & -> & [= -> -> ->]) | (? & [= -> -> ->])]
            | ] ]
      end.

Ltac run_cases H :=
  let Hb := fresh "Hbody" in
  rewrite _execute_unfold in H;
  match type of H with
  | context [_execute_try ?e ?g ?t ?f ?w] =>
      destruct (_execute_try e g t f w) as [[? ?] ?] eqn:Hb
  end;
  body_cases Hb;
  cbn [is_Exception KeyError AttributeError TypeError_add] in H;
  repeat match type of H with
         | context [is_Exception ?e] => destruct (is_Exception e) eqn:?
         end;
  injection H as <- <- <-;
  try solve [exfalso; congruence].

(** Two answers to one call are one answer. *)
Ltac same_calls :=
  repeat match goal with
         | H1 : ?f = _, H2 : ?f = _ |- _ =>
             rewrite H1 in H2; inversion H2; clear H2; subst
         end.

(** Membership of an event in the trace of a case: which call it is. *)
Ltac in_trace :=
  cbn [app In] in *;
  repeat match goal with
         | H : _ \/ _ |- _ => destruct H
         | H : False |- _ => destruct H
         | H : @eq (Event _) _ _ |- _ =>
             first [discriminate H | inversion H; clear H; subst]
         end.

(** A content that is not a [str] is no [VStr c]. *)
Ltac not_str :=
  match goal with
  | H : forall c, VStr ?x <> VStr c |- _ => elim (H x); reflexivity
  end.

(** The calls that returned, one by one. *)
Ltac unfold_reaches :=
  repeat match goal with
         | H : reaches _ _ _ _ _ _ _ _ |- _ => inversion H; clear H; subst
         end.

(** Where the exception of a case came up. *)
Ltac reach := repeat first [eassumption | econstructor].

Ltac find_raises :=
  same_calls; do 2 eexists;
  first
    [ solve [split; [eapply raises_no_llm; reach | reflexivity]]
    | solve [split; [eapply raises_get_model; reach | reflexivity]]
    | solve [split; [eapply raises_count_message_tokens; reach | reflexivity]]
    | solve [split; [eapply raises_get_model'; reach | reflexivity]]
    | solve [split; [eapply raises_token_limit; reach | reflexivity]]
    | solve [split; [eapply raises_chat_completion; reach | reflexivity]]
    | solve [split; [eapply raises_no_resource_manager; reach | reflexivity]]
    | solve [split; [eapply raises_no_content; reach | reflexivity]]
    | solve [split; [eapply raises_write_file; reach | reflexivity]]
    | solve [split; [eapply raises_not_a_str; reach | reflexivity]] ].

Section Properties.

Context {World Model : Type}.
Variable env : Collaborators World Model.
Variable goals : list string.


(** C1. Whatever the task, the file name and the goals: when the model
    lookups, the token count and the token limit return, [chat_completion]
    returns a result whose ["content"] is the text [c], and [write_file]
    returns a string that does not start with ["Error"], then [_execute]
    returns [c] immediately followed by
    ["Specification generated and saved successfully"]. *)
Theorem execute_success task file w0
    l model w1 total w2 model' w3 limit w4 d w5 rm c wr w6 :
  llm env = Some l ->
  get_model l w0 = (Ret model, w1) ->
  count_message_tokens env
    [ {| role := "system"; content := fill_prompt env goals task |} ]
    model w1 = (Ret total, w2) ->
  get_model l w2 = (Ret model', w3) ->
  token_limit env model' w3 = (Ret limit, w4) ->
  chat_completion l
    [ {| role := "system"; content := fill_prompt env goals task |} ]
    (limit - total - 100) w4 = (Ret d, w5) ->
  resource_manager env = Some rm ->
  dict_get d "content" = Some (VStr c) ->
  write_file rm file (VStr c) w5 = (Ret wr, w6) ->
  startswith wr "Error" = false ->
  result_of (_execute env goals task file w0) =
  Ret (c ++ "Specification generated and saved successfully").
Proof.
  intros Hllm Hm Hcount Hm' Hlimit Hchat Hrm Hc Hwrite Hok.
  destruct (_execute env goals task file w0) as [[r w] t] eqn:H.
  unfold result_of. cbn [fst].
  run_cases H; same_calls; try not_str; reflexivity.
Qed.


(** C4. In every run that reaches the LLM call, the calls made up to it are
    the model lookup, the token count of the message list for that model,
    the model lookup again and the token limit of that model; the
    [max_tokens] passed to [chat_completion] is the limit returned minus the
    count returned minus 100; and the message list is the one system
    message with the filled prompt. *)
Theorem max_tokens_budget task file w0 r w1 t messages max_tokens rc :
  _execute env goals task file w0 = (r, w1, t) ->
  In (ChatCompletion messages max_tokens rc) t ->
  messages = [ {| role := "system";
                  content := fill_prompt env goals task |} ]%list /\
  exists model total model' limit rest,
    t = (GetModel (Ret model)
         :: CountMessageTokens messages model (Ret total)
         :: GetModel (Ret model')
         :: TokenLimit model' (Ret limit)
         :: ChatCompletion messages max_tokens rc
         :: rest)%list /\
    max_tokens = (limit - total - 100)%Z.
Proof.
  intros H Hchat. run_cases H; in_trace.
  all: split; [reflexivity|]; do 5 eexists; split; reflexivity.
Qed.

(** C6. One run of [_execute] calls [chat_completion] at most once and
    [write_file] at most once, whatever the collaborators answer. *)
Theorem calls_at_most_once task file w0 :
  calls is_chat_completion (trace_of (_execute env goals task file w0)) <= 1 /\
  calls is_write_file (trace_of (_execute env goals task file w0)) <= 1.
Proof.
  destruct (_execute env goals task file w0) as [[r w1] t] eqn:H.
  unfold trace_of. cbn [snd].
  run_cases H; cbn; split; lia.
Qed.

(** C7. In every run in which [chat_completion], or one of the calls
    before it (model lookup, token count, token limit), raises,
    [write_file] is not called. *)
Theorem no_write_after_failure task file w0 r w1 t ev e :
  _execute env goals task file w0 = (r, w1, t) ->
  In ev t -> before_write ev = true -> raised ev = Some e ->
  calls is_write_file t = 0.
Proof.
  intros H Hev Hb Hr. run_cases H; in_trace.
  all: try discriminate; reflexivity.
Qed.

(** C8. The prompt, piece by piece. The rendered goals are in it after
    their own occurrences of ["{task}"] were replaced by the task
    description: ["{goals}"] is filled in first and the second replacement
    runs over the result. The task description is in it as it is, so that a
    ["{goals}"] inside the task description is still there in the prompt. *)
Theorem goals_filled_before_task task :
  fill_prompt env goals task =
    prompt_head
    ++ replace (add_list_items_to_string env goals) "{task}" task
    ++ prompt_middle ++ task ++ prompt_tail
  /\ (contains task "{goals}" ->
      contains (fill_prompt env goals task) "{goals}").
Proof.
  assert (E : fill_prompt env goals task =
    prompt_head
    ++ replace (add_list_items_to_string env goals) "{task}" task
    ++ prompt_middle ++ task ++ prompt_tail) by apply fill_template.
  split; [exact E|].
  intros (l & r & ->). rewrite E.
  exists (prompt_head
          ++ replace (add_list_items_to_string env goals) "{task}"
               (l ++ "{goals}" ++ r)
          ++ prompt_middle ++ l), (r ++ prompt_tail).
  now rewrite !append_assoc.
Qed.

(** C3, as the code has it. Wherever an exception [e] comes up inside the
    [try] (a collaborator call raises it; [self.llm] or
    [self.resource_manager] is [None]; the result has no ["content"]; the
    content is no [str] and cannot be added to the suffix): when [e] is an
    instance of [Exception], [_execute] logs it and returns
    ["Error generating specification: "] followed by the rendering of [e];
    when it is not, [e] goes on to the caller. In both cases the calls of
    the run are the calls made up to that point, followed by the log record
    alone when [e] was caught: nothing is called again, and the token
    count, the token limit, the LLM and the writer are called at most once
    each. *)
Theorem execute_catches_Exception task file w0 e w pre :
  raises env goals task file w0 e w pre ->
  _execute env goals task file w0 =
    (if is_Exception e
     then (Ret ("Error generating specification: " ++ exn_str e),
           logger_error env e w, (pre ++ [LoggerError e])%list)
     else (Raise e, w, pre)) /\
  calls is_count_message_tokens pre <= 1 /\
  calls is_token_limit pre <= 1 /\
  calls is_chat_completion pre <= 1 /\
  calls is_write_file pre <= 1 /\
  calls is_logger_error pre = 0.
Proof.
  intros Hr. split.
  - destruct (_execute env goals task file w0) as [[r w'] t] eqn:H.
    inversion Hr; subst; unfold_reaches.
    all: run_cases H; same_calls; try not_str.
    all: repeat match goal with
           | H : is_Exception _ = _ |- _ => rewrite H
           end; reflexivity.
  - inversion Hr; subst; unfold_reaches; cbn; repeat split; lia.
Qed.

(** C5. The message list of the LLM call. The template is its three fixed
    pieces around the two placeholders, and the pieces hold no brace. In
    every run, the message list passed to [chat_completion] has exactly one
    message, its role is ["system"], and its content is the template with
    the rendering of the goals in the place of ["{goals}"] (["{task}"]
    replaced inside the rendering as well) and the task description in the
    place of ["{task}"]. The call is made with that list as soon as the
    model lookups, the token count and the token limit return. *)
Theorem prompt_sent task file w0 :
  (prompt_template =
     prompt_head ++ "{goals}" ++ prompt_middle ++ "{task}" ++ prompt_tail /\
   mem_char "{"%char (prompt_head ++ prompt_middle ++ prompt_tail) = false) /\
  (forall messages max_tokens rc,
     In (ChatCompletion messages max_tokens rc)
        (trace_of (_execute env goals task file w0)) ->
     messages =
       [ {| role := "system";
            content :=
              prompt_head
              ++ replace (add_list_items_to_string env goals) "{task}" task
              ++ prompt_middle ++ task ++ prompt_tail |} ]%list) /\
  (forall l model w1 total w2 model' w3 limit w4,
     llm env = Some l ->
     get_model l w0 = (Ret model, w1) ->
     count_message_tokens env
       [ {| role := "system";
            content :=
              prompt_head
              ++ replace (add_list_items_to_string env goals) "{task}" task
              ++ prompt_middle ++ task ++ prompt_tail |} ]
       model w1 = (Ret total, w2) ->
     get_model l w2 = (Ret model', w3) ->
     token_limit env model' w3 = (Ret limit, w4) ->
     exists rc,
       In (ChatCompletion
             [ {| role := "system";
                  content :=
                    prompt_head
                    ++ replace (add_list_items_to_string env goals) "{task}" task
                    ++ prompt_middle ++ task ++ prompt_tail |} ]
             (limit - total - 100) rc)
          (trace_of (_execute env goals task file w0))).
Proof.
  assert (E : fill_prompt env goals task =
    prompt_head
    ++ replace (add_list_items_to_string env goals) "{task}" task
    ++ prompt_middle ++ task ++ prompt_tail) by apply fill_template.
  rewrite <- E.
  destruct (_execute env goals task file w0) as [[r w] t] eqn:H.
  unfold trace_of. cbn [snd].
  split; [split; reflexivity|]. split.
  - intros messages max_tokens rc Hchat. run_cases H; in_trace; reflexivity.
  - intros l model w1 total w2 model' w3 limit w4 Hllm Hm Hcount Hm' Hlimit.
    run_cases H; same_calls.
    all: eexists; cbn [In]; eauto 10.
Qed.


End Properties.

(** *** Further properties of a run *)

Section MoreProperties.

Context {World Model : Type}.
Variable env : Collaborators World Model.
Variable goals : list string.

(** X1. When [chat_completion] returns a dict that has no ["content"],
    [write_file] is not called, and the exception that comes up is logged
    and returned as text: the [KeyError] of the lookup,
    ["Error generating specification: 'content'"], when the tool has a
    resource manager; without one the [AttributeError] of
    [self.resource_manager.write_file], which Python evaluates first. *)
Theorem missing_content task file w0 r w1 t messages max_tokens d :
  _execute env goals task file w0 = (r, w1, t) ->
  In (ChatCompletion messages max_tokens (Ret d)) t ->
  dict_get d "content" = None ->
  match resource_manager env with
  | Some _ =>
      r = Ret "Error generating specification: 'content'" /\
      In (LoggerError (KeyError "content")) t
  | None =>
      r = Ret "Error generating specification: 'NoneType' object has no attribute 'write_file'" /\
      In (LoggerError (AttributeError "NoneType" "write_file")) t
  end /\
  calls is_write_file t = 0.
Proof.
  intros H Hchat Hd. run_cases H; in_trace; same_calls.
  all: repeat match goal with
         | H : resource_manager _ = _ |- _ => rewrite H
         end.
  all: repeat split; cbn [In]; auto 10.
Qed.

(** X2. Whatever is written is written under [spec_file_name], and is the
    value that the result of [chat_completion] holds under ["content"]: the
    success suffix is not part of the file. *)
Theorem written_content task file w0 r w1 t f c rw :
  _execute env goals task file w0 = (r, w1, t) ->
  In (WriteFile f c rw) t ->
  f = file /\
  exists messages max_tokens d,
    In (ChatCompletion messages max_tokens (Ret d)) t /\
    dict_get d "content" = Some c.
Proof.
  intros H Hw. run_cases H; in_trace.
  all: split; [reflexivity|]; do 3 eexists; split; [cbn [In]; eauto 10|].
  all: assumption.
Qed.

(** X3. A returned string that does not start with ["Error"] tells that
    everything went through: the run made exactly the six calls of the
    [try], each returned, the content is a text, the writer's answer did not
    start with ["Error"], nothing was logged, and the string is the content
    that was written followed by the success suffix. *)
Theorem not_Error_means_written task file w0 r w1 t s :
  _execute env goals task file w0 = (r, w1, t) ->
  r = Ret s ->
  startswith s "Error" = false ->
  exists model total model' limit d c wr,
    t = [ GetModel (Ret model);
          CountMessageTokens
            [ {| role := "system"; content := fill_prompt env goals task |} ]
            model (Ret total);
          GetModel (Ret model');
          TokenLimit model' (Ret limit);
          ChatCompletion
            [ {| role := "system"; content := fill_prompt env goals task |} ]
            (limit - total - 100) (Ret d);
          WriteFile file (VStr c) (Ret wr) ]%list /\
    dict_get d "content" = Some (VStr c) /\
    startswith wr "Error" = false /\
    s = c ++ "Specification generated and saved successfully".
Proof.
  intros H Hr Hs. run_cases H; try discriminate Hr; injection Hr as <-.
  all: try (unfold startswith in Hs; cbn in Hs; discriminate Hs).
  all: try congruence.
  all: same_calls.
  all: do 7 eexists; split; [reflexivity|]; split; [eassumption|].
  all: split; [assumption|]; reflexivity.
Qed.

(** X4. [logger.error] is called only from the handler: if [e] was logged,
    then [e] is an instance of [Exception] that came up inside the [try],
    the calls of the run are those made up to that point followed by the
    log record, which is the only one, and the value returned is the error
    text of [e]. *)
Theorem logged_means_caught task file w0 r w1 t e :
  _execute env goals task file w0 = (r, w1, t) ->
  In (LoggerError e) t ->
  is_Exception e = true /\
  (exists w pre,
      raises env goals task file w0 e w pre /\
      t = (pre ++ [LoggerError e])%list) /\
  r = Ret ("Error generating specification: " ++ exn_str e) /\
  calls is_logger_error t = 1.
Proof.
  intros H Hlog. run_cases H; in_trace.
  all: (split; [assumption || reflexivity|]).
  all: (split; [|split; reflexivity]).
  all: find_raises.
Qed.

(** X5. Once [write_file] has returned a string that starts with
    ["Error"], or any string when the content is a text, nothing is logged
    in that run: an error reported by the writer in its answer goes back to
    the caller without a log record. *)
Theorem writer_answer_not_logged task file w0 r w1 t f v wr :
  _execute env goals task file w0 = (r, w1, t) ->
  In (WriteFile f v (Ret wr)) t ->
  startswith wr "Error" = true \/ (exists c, v = VStr c) ->
  calls is_logger_error t = 0.
Proof.
  intros H Hw Hor. run_cases H; in_trace; try reflexivity.
  all: repeat match goal with
         | H : exists c, _ = VStr c |- _ => destruct H as [? ->]
         end; same_calls; not_str.
Qed.

(** X6. An exception that leaves [_execute] is never an instance of
    [Exception]; it was raised by a collaborator call, that call is the last
    event of the run, and nothing was logged. *)
Theorem escaping_exception task file w0 r w1 t e :
  _execute env goals task file w0 = (r, w1, t) ->
  r = Raise e ->
  is_Exception e = false /\
  (exists pre ev, t = (pre ++ [ev])%list /\ raised ev = Some e) /\
  calls is_logger_error t = 0.
Proof.
  intros H Hr. run_cases H; try discriminate Hr; injection Hr as <-.
  all: try discriminate.
  all: (split; [assumption|]); (split; [|reflexivity]).
  all: match goal with
       | |- exists pre ev, ?t = _ /\ _ =>
           first [ exists (firstn 0 t); eexists; split; reflexivity
                 | exists (firstn 1 t); eexists; split; reflexivity
                 | exists (firstn 2 t); eexists; split; reflexivity
                 | exists (firstn 3 t); eexists; split; reflexivity
                 | exists (firstn 4 t); eexists; split; reflexivity
                 | exists (firstn 5 t); eexists; split; reflexivity ]
       end.
Qed.

(** X7. When ["{task}"] does not occur in the rendered goals, the two
    replacements do not interfere: the prompt is the template with the
    rendering in the place of ["{goals}"] and the task description in the
    place of ["{task}"], both as they are. *)
Theorem plain_substitution task :
  str_in "{task}" (add_list_items_to_string env goals) = false ->
  fill_prompt env goals task =
    prompt_head ++ add_list_items_to_string env goals
    ++ prompt_middle ++ task ++ prompt_tail.
Proof.
  intros Hg. unfold fill_prompt. rewrite fill_template.
  unfold replace at 1. now rewrite (replace_from_absent _ _ _ Hg).
Qed.

(** X8. One run makes at most seven collaborator calls: the model is looked
    up at most twice, and at most one record is logged. *)
Theorem call_budget task file w0 :
  List.length (trace_of (_execute env goals task file w0)) <= 7 /\
  calls is_get_model (trace_of (_execute env goals task file w0)) <= 2 /\
  calls is_logger_error (trace_of (_execute env goals task file w0)) <= 1.
Proof.
  destruct (_execute env goals task file w0) as [[r w1] t] eqn:H.
  unfold trace_of. cbn [snd].
  run_cases H; cbn; repeat split; lia.
Qed.

(** X9. When the content of the result is not a text and the writer's
    answer does not start with ["Error"], the file has been written and
    still the run ends in an error: adding the content to the success
    suffix raises a [TypeError], which is logged and returned as text. *)
Theorem written_then_TypeError task file w0 r w1 t f v wr :
  _execute env goals task file w0 = (r, w1, t) ->
  In (WriteFile f v (Ret wr)) t ->
  startswith wr "Error" = false ->
  (forall c, v <> VStr c) ->
  r = Ret ("Error generating specification: "
           ++ "unsupported operand type(s) for +: '" ++ type_name v
           ++ "' and 'str'") /\
  In (LoggerError (TypeError_add (type_name v) "str")) t.
Proof.
  intros H Hw Hok Hv. run_cases H; in_trace; same_calls; try not_str.
  split; [reflexivity | cbn [In]; auto 10].
Qed.

(** X10. A tool without a resource manager still calls the LLM; once the
    LLM has answered, the run ends with the [AttributeError] of
    [self.resource_manager.write_file], logged and returned as text,
    whatever the answer holds, and nothing is written. *)
Theorem no_resource_manager_error task file w0 r w1 t messages max_tokens d :
  _execute env goals task file w0 = (r, w1, t) ->
  In (ChatCompletion messages max_tokens (Ret d)) t ->
  resource_manager env = None ->
  r = Ret "Error generating specification: 'NoneType' object has no attribute 'write_file'" /\
  In (LoggerError (AttributeError "NoneType" "write_file")) t /\
  calls is_write_file t = 0.
Proof.
  intros H Hchat Hrm. run_cases H; in_trace; same_calls.
  repeat split; cbn [In]; auto 10.
Qed.

(** X11. A tool without an LLM calls no collaborator at all: the run logs
    the [AttributeError] of [self.llm.get_model] and returns its text. *)
Theorem no_llm_error task file w0 :
  llm env = None ->
  _execute env goals task file w0 =
    (Ret "Error generating specification: 'NoneType' object has no attribute 'get_model'",
     logger_error env (AttributeError "NoneType" "get_model") w0,
     [LoggerError (AttributeError "NoneType" "get_model")]%list).
Proof.
  intros Hllm.
  destruct (_execute env goals task file w0) as [[r w] t] eqn:H.
  run_cases H; same_calls. reflexivity.
Qed.

End MoreProperties.


(** *** Concrete runs *)

Import Scripted.

Ltac in_run := vm_compute; repeat first [left; reflexivity | right].

(** The calls of a scripted run that returned. *)
Ltac reach_run := repeat first [reflexivity | econstructor].

Example run_all_fine :
  result_of (_execute all_fine adder_goals "Add two numbers" "adder.txt" tt) =
  Ret "The program adds two numbers.Specification generated and saved successfully".
Proof. vm_compute. reflexivity. Qed.

Example run_disk_full :
  result_of (_execute disk_full adder_goals "Add two numbers" "adder.txt" tt) = Ret "Error: disk full".
Proof. vm_compute. reflexivity. Qed.

Example run_llm_down :
  result_of (_execute llm_down adder_goals "Add two numbers" "adder.txt" tt) = Ret "Error generating specification: rate limit".
Proof. vm_compute. reflexivity. Qed.

Example run_no_content :
  result_of (_execute no_content adder_goals "Add two numbers" "adder.txt" tt) = Ret "Error generating specification: 'content'".
Proof. vm_compute. reflexivity. Qed.

Example run_none_content :
  result_of (_execute none_content adder_goals "Add two numbers" "adder.txt" tt) =
  Ret "Error generating specification: unsupported operand type(s) for +: 'NoneType' and 'str'".
Proof. vm_compute. reflexivity. Qed.

Example run_no_resource_manager :
  result_of (_execute no_resource_manager adder_goals "Add two numbers" "adder.txt" tt) =
  Ret "Error generating specification: 'NoneType' object has no attribute 'write_file'".
Proof. vm_compute. reflexivity. Qed.

Lemma execute_success_witness :
  result_of (_execute all_fine adder_goals "Add two numbers" "adder.txt" tt) =
  Ret ("The program adds two numbers."
       ++ "Specification generated and saved successfully").
Proof.
  apply (execute_success all_fine adder_goals "Add two numbers" "adder.txt" tt
           (scripted_llm (Ret spec_result)) "gpt-4" tt 200%Z tt "gpt-4" tt
           8192%Z tt spec_result tt
           (scripted_writer (Ret "File written to adder.txt"))
           "The program adds two numbers." "File written to adder.txt" tt);
    reflexivity.
Defined.


Lemma max_tokens_budget_witness :
  exists model total model' limit rest,
    trace_of (_execute all_fine adder_goals "Add two numbers" "adder.txt" tt) =
      (GetModel (Ret model)
       :: CountMessageTokens
            [ {| role := "system";
               content := fill_prompt all_fine adder_goals "Add two numbers" |} ]%list
            model (Ret total)
       :: GetModel (Ret model')
       :: TokenLimit model' (Ret limit)
       :: ChatCompletion
            [ {| role := "system";
               content := fill_prompt all_fine adder_goals "Add two numbers" |} ]%list
            7892 (Ret spec_result)
       :: rest)%list /\
    7892%Z = (limit - total - 100)%Z.
Proof.
  apply (max_tokens_budget all_fine adder_goals "Add two numbers" "adder.txt" tt
           (result_of (_execute all_fine adder_goals "Add two numbers" "adder.txt" tt))
           tt
           (trace_of (_execute all_fine adder_goals "Add two numbers" "adder.txt" tt))
           [ {| role := "system";
               content := fill_prompt all_fine adder_goals "Add two numbers" |} ]%list
           7892%Z (Ret spec_result)).
  - vm_compute. reflexivity.
  - in_run.
Defined.

Lemma prompt_sent_witness :
  exists rc,
    In (ChatCompletion
          [ {| role := "system";
               content :=
                 prompt_head
                 ++ replace (add_list_items_to_string all_fine adder_goals)
                      "{task}" "Add two numbers"
                 ++ prompt_middle ++ "Add two numbers" ++ prompt_tail |} ]
          (8192 - 200 - 100) rc)
       (trace_of (_execute all_fine adder_goals "Add two numbers" "adder.txt" tt)).
Proof.
  apply (proj2 (proj2 (prompt_sent all_fine adder_goals "Add two numbers"
                         "adder.txt" tt))
           (scripted_llm (Ret spec_result)) "gpt-4" tt 200%Z tt "gpt-4" tt
           8192%Z tt);
    reflexivity.
Defined.

Lemma no_write_after_failure_witness :
  calls is_write_file (trace_of (_execute llm_down adder_goals "Add two numbers" "adder.txt" tt)) = 0.
Proof.
  apply (no_write_after_failure llm_down adder_goals "Add two numbers"
           "adder.txt" tt
           (result_of (_execute llm_down adder_goals "Add two numbers" "adder.txt" tt))
           tt
           (trace_of (_execute llm_down adder_goals "Add two numbers" "adder.txt" tt))
           (ChatCompletion
              [ {| role := "system";
               content := fill_prompt llm_down adder_goals "Add two numbers" |} ]%list
              7892%Z (Raise (RuntimeError "rate limit")))
           (RuntimeError "rate limit")).
  - vm_compute. reflexivity.
  - in_run.
  - reflexivity.
  - reflexivity.
Defined.

(** C3, as stated, fails: an interrupt from the keyboard during the LLM
    call comes up inside the [try], is not an instance of [Exception], and
    leaves [_execute] as an exception, not as the error text. *)
Lemma interrupt_escapes :
  (exists pre,
      raises interrupted adder_goals "Add two numbers" "adder.txt" tt
        KeyboardInterrupt tt pre) /\
  result_of (_execute interrupted adder_goals "Add two numbers" "adder.txt" tt) = Raise KeyboardInterrupt /\
  result_of (_execute interrupted adder_goals "Add two numbers" "adder.txt" tt)
    <> Ret ("Error generating specification: " ++ exn_str KeyboardInterrupt).
Proof.
  split; [|split].
  - eexists. eapply raises_chat_completion; reach_run.
  - vm_compute. reflexivity.
  - vm_compute. discriminate.
Qed.

Lemma execute_catches_Exception_witness :
  result_of (_execute llm_down adder_goals "Add two numbers" "adder.txt" tt) =
  Ret ("Error generating specification: " ++ "rate limit").
Proof.
  eapply (fun pre R =>
            f_equal result_of
              (proj1 (execute_catches_Exception llm_down adder_goals
                        "Add two numbers" "adder.txt" tt
                        (RuntimeError "rate limit") tt pre R))).
  eapply raises_chat_completion; reach_run.
Defined.

Lemma goals_filled_before_task_witness :
  fill_prompt (scripted 8192 200 (Ret spec_result) (Ret "ok"))
    ["Solve {task} quickly"]%list "Explain {goals}" =
    prompt_head ++ "Solve Explain {goals} quickly" ++ newline
    ++ prompt_middle ++ "Explain {goals}" ++ prompt_tail
  /\ contains
       (fill_prompt (scripted 8192 200 (Ret spec_result) (Ret "ok"))
          ["Solve {task} quickly"]%list "Explain {goals}")
       "{goals}".
Proof.
  split.
  - apply (goals_filled_before_task
             (scripted 8192 200 (Ret spec_result) (Ret "ok"))
             ["Solve {task} quickly"]%list "Explain {goals}").
  - apply (goals_filled_before_task
             (scripted 8192 200 (Ret spec_result) (Ret "ok"))
             ["Solve {task} quickly"]%list "Explain {goals}").
    exists "Explain ", "". reflexivity.
Defined.


(** *** Concrete runs for the further properties *)

Lemma missing_content_witness :
  (result_of (_execute no_content adder_goals "Add two numbers" "adder.txt" tt) = Ret "Error generating specification: 'content'" /\
   In (LoggerError (KeyError "content")) (trace_of (_execute no_content adder_goals "Add two numbers" "adder.txt" tt))) /\
  calls is_write_file (trace_of (_execute no_content adder_goals "Add two numbers" "adder.txt" tt)) = 0.
Proof.
  apply (missing_content no_content adder_goals "Add two numbers" "adder.txt"
           tt _ tt _
           [ {| role := "system";
               content := fill_prompt no_content adder_goals "Add two numbers" |} ]%list
           7892%Z [("error", VStr "ERROR_OPENAI")]%list).
  - vm_compute. reflexivity.
  - in_run.
  - reflexivity.
Defined.

Lemma written_content_witness :
  "adder.txt" = "adder.txt" /\
  exists messages max_tokens d,
    In (ChatCompletion messages max_tokens (Ret d)) (trace_of (_execute all_fine adder_goals "Add two numbers" "adder.txt" tt)) /\
    dict_get d "content" = Some (VStr "The program adds two numbers.").
Proof.
  apply (written_content all_fine adder_goals "Add two numbers" "adder.txt"
           tt (result_of (_execute all_fine adder_goals "Add two numbers" "adder.txt" tt)) tt _ "adder.txt"
           (VStr "The program adds two numbers.")
           (Ret "File written to adder.txt")).
  - vm_compute. reflexivity.
  - in_run.
Defined.

Lemma not_Error_means_written_witness :
  exists model total model' limit d c wr,
    trace_of (_execute all_fine adder_goals "Add two numbers" "adder.txt" tt) =
      [ GetModel (Ret model);
        CountMessageTokens
          [ {| role := "system";
               content := fill_prompt all_fine adder_goals "Add two numbers" |} ]%list
          model (Ret total);
        GetModel (Ret model');
        TokenLimit model' (Ret limit);
        ChatCompletion
          [ {| role := "system";
               content := fill_prompt all_fine adder_goals "Add two numbers" |} ]%list
          (limit - total - 100) (Ret d);
        WriteFile "adder.txt" (VStr c) (Ret wr) ]%list /\
    dict_get d "content" = Some (VStr c) /\
    startswith wr "Error" = false /\
    "The program adds two numbers.Specification generated and saved successfully"
    = c ++ "Specification generated and saved successfully".
Proof.
  apply (not_Error_means_written all_fine adder_goals "Add two numbers"
           "adder.txt" tt (result_of (_execute all_fine adder_goals "Add two numbers" "adder.txt" tt)) tt).
  - vm_compute. reflexivity.
  - vm_compute. reflexivity.
  - reflexivity.
Defined.

Lemma logged_means_caught_witness :
  result_of (_execute llm_down adder_goals "Add two numbers" "adder.txt" tt) =
  Ret ("Error generating specification: " ++ "rate limit").
Proof.
  apply (logged_means_caught llm_down adder_goals "Add two numbers"
           "adder.txt" tt _ tt (trace_of (_execute llm_down adder_goals "Add two numbers" "adder.txt" tt))
           (RuntimeError "rate limit")).
  - vm_compute. reflexivity.
  - in_run.
Defined.

Lemma writer_answer_not_logged_witness :
  calls is_logger_error (trace_of (_execute disk_full adder_goals "Add two numbers" "adder.txt" tt)) = 0.
Proof.
  apply (writer_answer_not_logged disk_full adder_goals "Add two numbers"
           "adder.txt" tt (result_of (_execute disk_full adder_goals "Add two numbers" "adder.txt" tt)) tt _ "adder.txt"
           (VStr "The program adds two numbers.") "Error: disk full").
  - vm_compute. reflexivity.
  - in_run.
  - left. reflexivity.
Defined.

Lemma escaping_exception_witness :
  is_Exception KeyboardInterrupt = false /\
  (exists pre ev,
      trace_of (_execute interrupted adder_goals "Add two numbers" "adder.txt" tt) = (pre ++ [ev])%list /\
      raised ev = Some KeyboardInterrupt) /\
  calls is_logger_error (trace_of (_execute interrupted adder_goals "Add two numbers" "adder.txt" tt)) = 0.
Proof.
  apply (escaping_exception interrupted adder_goals "Add two numbers"
           "adder.txt" tt (result_of (_execute interrupted adder_goals "Add two numbers" "adder.txt" tt)) tt).
  - vm_compute. reflexivity.
  - vm_compute. reflexivity.
Defined.

Lemma plain_substitution_witness :
  fill_prompt all_fine adder_goals "Add two numbers" =
    prompt_head ++ ("Write an adder" ++ newline)
    ++ prompt_middle ++ "Add two numbers" ++ prompt_tail.
Proof.
  apply (plain_substitution all_fine adder_goals "Add two numbers").
  reflexivity.
Defined.

Lemma written_then_TypeError_witness :
  result_of (_execute none_content adder_goals "Add two numbers" "adder.txt" tt) =
    Ret ("Error generating specification: "
         ++ "unsupported operand type(s) for +: '" ++ "NoneType"
         ++ "' and 'str'") /\
  In (LoggerError (TypeError_add "NoneType" "str")) (trace_of (_execute none_content adder_goals "Add two numbers" "adder.txt" tt)).
Proof.
  apply (written_then_TypeError none_content adder_goals "Add two numbers"
           "adder.txt" tt (result_of (_execute none_content adder_goals "Add two numbers" "adder.txt" tt)) tt _ "adder.txt"
           VNone "File written to adder.txt").
  - vm_compute. reflexivity.
  - in_run.
  - reflexivity.
  - discriminate.
Defined.

Lemma no_resource_manager_error_witness :
  result_of (_execute no_resource_manager adder_goals "Add two numbers" "adder.txt" tt) =
    Ret "Error generating specification: 'NoneType' object has no attribute 'write_file'" /\
  In (LoggerError (AttributeError "NoneType" "write_file"))
     (trace_of (_execute no_resource_manager adder_goals "Add two numbers" "adder.txt" tt)) /\
  calls is_write_file (trace_of (_execute no_resource_manager adder_goals "Add two numbers" "adder.txt" tt)) = 0.
Proof.
  apply (no_resource_manager_error no_resource_manager adder_goals
           "Add two numbers" "adder.txt" tt _ tt _
           [ {| role := "system";
               content := fill_prompt no_resource_manager adder_goals "Add two numbers" |} ]%list
           7892%Z spec_result).
  - vm_compute. reflexivity.
  - in_run.
  - reflexivity.
Defined.

Lemma no_llm_error_witness :
  _execute no_llm adder_goals "Add two numbers" "adder.txt" tt =
    (Ret "Error generating specification: 'NoneType' object has no attribute 'get_model'",
     tt, [LoggerError (AttributeError "NoneType" "get_model")]%list).
Proof.
  apply (no_llm_error no_llm adder_goals "Add two numbers" "adder.txt" tt).
  reflexivity.
Defined.

End WriteSpecToolFacts.
